(** * nextjs15-rendering: the Landing View and the Echo View

    A shallow embedding of the two page components of the repository,

    - [src/app/page.tsx]            (function [page], route "/")
    - [src/app/dashboard/page.tsx]  (function [DashboardPage], route "/dashboard")

    A component is a function that is evaluated against the hook store of
    its instance and the console, and returns an element tree.  The tree
    is data: elements with a tag, properties and children, the way JSX
    builds them.  What React and next/link do around the two functions
    (keeping the hook store between evaluations, delivering a change event
    to the [onChange] handler, evaluating the component again, following a
    [Link]) is the small host model of the second half of the definitions. *)

From stdpp Require Import base option list strings.

Local Open Scope string_scope.

(** ** Element trees *)

(** The part of a DOM change event the source reads: [evt.target.value]. *)
Record event := { target_value : string }.

(** A call of a state setter, [setX(v)]: the update it puts on the queue
    of the hook cell [slot]. *)
Inductive action :=
| SetState (slot : nat) (v : string).

(** A JSX property is a string attribute ([value={name}], [href="..."])
    or an event handler ([onChange={...}]); a handler is the function the
    source writes, from the event to the setter calls it makes. *)
Inductive prop :=
| Attr (key val : string)
| Handler (key : string) (h : event -> list action).

#[warnings="-register-all"]
Inductive node :=
| Text (s : string)
| Elem (tag : string) (props : list prop) (children : list node).

Definition props_of (n : node) : list prop :=
  match n with
  | Text _ => []
  | Elem _ ps _ => ps
  end.

Fixpoint attr (key : string) (ps : list prop) : option string :=
  match ps with
  | [] => None
  | Attr k v :: ps' => if String.eqb k key then Some v else attr key ps'
  | Handler _ _ :: ps' => attr key ps'
  end.

Fixpoint handler (key : string) (ps : list prop)
  : option (event -> list action) :=
  match ps with
  | [] => None
  | Handler k h :: ps' => if String.eqb k key then Some h else handler key ps'
  | Attr _ _ :: ps' => handler key ps'
  end.

(** The text a reader sees in a subtree: the text nodes below it, in
    document order, joined (the DOM's [textContent]). *)
Fixpoint text_content (n : node) : string :=
  match n with
  | Text s => s
  | Elem _ _ cs =>
      (fix join (l : list node) : string :=
         match l with
         | [] => ""
         | c :: l' => text_content c +:+ join l'
         end) cs
  end.

(** Every element of the subtree that carries the tag, in document order. *)
Fixpoint find_elems (tag : string) (n : node) : list node :=
  match n with
  | Text _ => []
  | Elem t _ cs =>
      ((if String.eqb t tag then [n] else [])
       ++ (fix below (l : list node) : list node :=
             match l with
             | [] => []
             | c :: l' => find_elems tag c ++ below l'
             end) cs)%list
  end.

(** ** The render monad: console and hook store *)

(** What one evaluation of a component can touch: the hook cells of the
    instance, the position of the next hook call, and the console. *)
Record world := {
  cells : list string;
  cursor : nat;
  console : list string
}.

Definition Render (A : Type) : Type := world -> A * world.

Definition ret {A} (a : A) : Render A := fun w => (a, w).

Definition bind {A B} (m : Render A) (k : A -> Render B) : Render B :=
  fun w => let '(a, w') := m w in k a w'.

Declare Scope render_scope.
Delimit Scope render_scope with render.
Notation "x <- m ;; k" := (bind m (fun x => k))
  (at level 100, m at next level, right associativity) : render_scope.
Notation "m ;; k" := (bind m (fun _ => k))
  (at level 100, right associativity) : render_scope.

(** [console.log(s)]: one more line on the console. *)
Definition console_log (s : string) : Render unit :=
  fun w => (tt, {| cells := cells w; cursor := cursor w;
                   console := (console w ++ [s])%list |}).

(** [useState(init)]: the hook call at the current position.  On the
    first evaluation of an instance the cell does not exist yet and is
    created with [init]; on every later one the stored value is returned
    and [init] is ignored.  The setter names the cell it belongs to. *)
Definition useState (init : string) : Render (string * (string -> action)) :=
  fun w =>
    let i := cursor w in
    match cells w !! i with
    | Some v =>
        ((v, SetState i),
         {| cells := cells w; cursor := S i; console := console w |})
    | None =>
        ((init, SetState i),
         {| cells := (cells w ++ [init])%list; cursor := S i; console := console w |})
    end.

(** ** The two components *)

Local Open Scope render_scope.

(** [src/app/page.tsx], function [page]. *)
Definition page : Render node :=
  ret (Elem "div" []
         [ Elem "h2" [] [Text "Home Page"];
           Elem "Link" [Attr "href" "/dashboard"] [Text "To Dashboard"] ]).

(** [src/app/dashboard/page.tsx], function [DashboardPage]. *)
Definition DashboardPage : Render node :=
  console_log "Dashboard client-component" ;;
  st <- useState "" ;;
  let '(name, setName) := st in
  ret (Elem "div" []
         [ Elem "h1" [] [Text "DashboardPage"];
           Elem "input"
             [ Attr "value" name;
               Handler "onChange" (fun evt => [setName (target_value evt)]) ]
             [];
           Elem "h2" [] [Text "Hello, "; Text name; Text "!"] ]).

Local Close Scope render_scope.

(** ** The host: instances, change events, navigation *)

(** A mounted instance of a component: its hook store, the console so
    far, the tree of its last evaluation (what is on screen), and how
    many times the component function has been evaluated for it. *)
Record instance := {
  hooks : list string;
  log : list string;
  view : node;
  passes : nat
}.

(** One render pass: the component function is called with the hook
    cursor at the first cell. *)
Definition evaluate (c : Render node)
    (hs : list string) (lg : list string) (p : nat) : instance :=
  let '(t, w) := c {| cells := hs; cursor := 0; console := lg |} in
  {| hooks := cells w; log := console w; view := t; passes := S p |}.

(** First evaluation: no hook cell yet, nothing logged. *)
Definition mount (c : Render node) : instance := evaluate c [] [] 0.

(** A queued update writes its value into its cell. *)
Definition apply_action (hs : list string) (a : action) : list string :=
  match a with
  | SetState i v => <[i:=v]> hs
  end.

Definition commit (acts : list action) (hs : list string) : list string :=
  foldl apply_action hs acts.

Section Host.

(** Whether the host skips the render pass when the handler leaves
    every hook cell at the value it had (React compares the new state
    with the current one and may bail out).  The facts below hold for
    either choice. *)
Variable eager_bailout : bool.

(** The user edits the text field so that it reads [v]: the change
    event goes to the [onChange] handler of the first [input] of the
    tree on screen, the setter calls of the handler are committed, and
    the component is evaluated again.  There is no result when the tree
    has no such handler. *)
Definition fire_change (c : Render node) (v : string) (inst : instance)
  : option instance :=
  match head (find_elems "input" (view inst)) with
  | None => None
  | Some el =>
      match handler "onChange" (props_of el) with
      | None => None
      | Some h =>
          let hs := commit (h {| target_value := v |}) (hooks inst) in
          if eager_bailout && bool_decide (hs = hooks inst)
          then Some inst
          else Some (evaluate c hs (log inst) (passes inst))
      end
  end.

(** A whole session on the Echo View: mount, then one change event per
    entry of [inputs], each carrying the full content of the field. *)
Fixpoint run_from (inst : instance) (inputs : list string)
  : option instance :=
  match inputs with
  | [] => Some inst
  | v :: vs =>
      match fire_change DashboardPage v inst with
      | None => None
      | Some inst' => run_from inst' vs
      end
  end.

Definition run (inputs : list string) : option instance :=
  run_from (mount DashboardPage) inputs.

End Host.

(** What the Echo View shows: the text of its [h2] and the [value] of
    its [input]. *)
Definition greeting (t : node) : option string :=
  text_content <$> head (find_elems "h2" t).

Definition input_value (t : node) : option string :=
  match head (find_elems "input" t) with
  | None => None
  | Some el => attr "value" (props_of el)
  end.

(** The state of the Echo View: its only hook cell. *)
Definition echo_state (inst : instance) : option string := hooks inst !! 0.

(** The greeting after each change event of a session, in order. *)
Fixpoint greetings_from (b : bool) (inst : instance) (inputs : list string)
  : list (option string) :=
  match inputs with
  | [] => []
  | v :: vs =>
      match fire_change b DashboardPage v inst with
      | None => [None]
      | Some inst' => greeting (view inst') :: greetings_from b inst' vs
      end
  end.

(** Navigation, as next/link provides it: activating a [Link] element
    asks the router for the address in its [href]; nothing else on the
    page can be activated. *)
Inductive request :=
| Navigate (address : string).

Definition activate (n : node) : option request :=
  match n with
  | Elem tag ps _ =>
      if String.eqb tag "Link" then Navigate <$> attr "href" ps else None
  | Text _ => None
  end.

(** The navigation elements of a tree, each with its label and target. *)
Definition nav_elements (t : node) : list (string * option string) :=
  (fun l => (text_content l, attr "href" (props_of l))) <$> find_elems "Link" t.

(** The tree the Echo View draws for a state value: [DashboardPage]
    evaluated on a store that holds just that value. *)
Definition echo_tree (name : string) : node :=
  (DashboardPage {| cells := [name]; cursor := 0; console := [] |}).1.

Definition log_line : string := "Dashboard client-component".

(** An instance is settled on [n] when its store is the single cell [n],
    the tree on screen is the one drawn for [n], and the console holds
    one line per render pass. *)
Definition settled (inst : instance) (n : string) : Prop :=
  hooks inst = [n] /\
  view inst = echo_tree n /\
  log inst = replicate (passes inst) log_line /\
  0 < passes inst.

(** The tags of the elements of a subtree, in document order: the
    markup of the tree without its texts and properties. *)
Fixpoint tags (n : node) : list string :=
  match n with
  | Text _ => []
  | Elem t _ cs =>
      t :: (fix below (l : list node) : list string :=
              match l with
              | [] => []
              | c :: l' => (tags c ++ below l')%list
              end) cs
  end.

(** The handler a change event on the tree is delivered to. *)
Definition change_handler (t : node) : option (event -> list action) :=
  match head (find_elems "input" t) with
  | None => None
  | Some el => handler "onChange" (props_of el)
  end.


(** * Facts *)

Local Open Scope list_scope.

(** ** Two sessions, computed *)

Example mount_computes :
  hooks (mount DashboardPage) = [""] /\
  log (mount DashboardPage) = [log_line] /\
  greeting (view (mount DashboardPage)) = Some "Hello, !".
Proof. repeat split; reflexivity. Qed.

Example run_ali b :
  (fun i => (hooks i, greeting (view i), input_value (view i)))
    <$> run b ["A"; "Al"; "Ali"]
  = Some (["Ali"], Some "Hello, Ali!", Some "Ali").
Proof. destruct b; vm_compute; reflexivity. Qed.

(** ** One evaluation of [DashboardPage] *)

Lemma DashboardPage_update n rest lg :
  DashboardPage {| cells := n :: rest; cursor := 0; console := lg |}
  = (echo_tree n,
     {| cells := n :: rest; cursor := 1; console := lg ++ [log_line] |}).
Proof. reflexivity. Qed.

Lemma DashboardPage_mount lg :
  DashboardPage {| cells := []; cursor := 0; console := lg |}
  = (echo_tree "",
     {| cells := [""]; cursor := 1; console := lg ++ [log_line] |}).
Proof. reflexivity. Qed.

Lemma DashboardPage_console w :
  console (DashboardPage w).2 = console w ++ [log_line].
Proof.
  destruct w as [cs i lg].
  unfold DashboardPage, bind, console_log, useState; simpl.
  destruct (cs !! i); reflexivity.
Qed.

Lemma echo_tree_greeting n :
  greeting (echo_tree n) = Some ("Hello, " +:+ n +:+ "!").
Proof. reflexivity. Qed.

Lemma echo_tree_input_value n : input_value (echo_tree n) = Some n.
Proof. reflexivity. Qed.

Lemma echo_tree_handler n :
  exists el h,
    head (find_elems "input" (echo_tree n)) = Some el /\
    handler "onChange" (props_of el) = Some h /\
    forall v, h {| target_value := v |} = [SetState 0 v].
Proof. do 2 eexists. repeat split; reflexivity. Qed.

Lemma replicate_snoc {A} (k : nat) (x : A) :
  replicate k x ++ [x] = replicate (S k) x.
Proof. induction k as [|k IH]; simpl; [reflexivity | now rewrite IH]. Qed.

Lemma default_last_cons {A} (vs : list A) : forall v n,
  default n (last (v :: vs)) = default v (last vs).
Proof.
  induction vs as [|v' vs' IH]; intros v n; [reflexivity|].
  change (last (v :: v' :: vs')) with (last (v' :: vs')).
  now rewrite !IH.
Qed.

(** ** The invariant of a session *)

Lemma mount_settled : settled (mount DashboardPage) "".
Proof. repeat split. simpl. lia. Qed.

Lemma evaluate_settled n lg p :
  lg = replicate p log_line ->
  settled (evaluate DashboardPage [n] lg p) n.
Proof.
  intros ->. unfold evaluate. rewrite DashboardPage_update. simpl.
  repeat split; simpl; [apply replicate_snoc | lia].
Qed.

Section Session.

Variable b : bool.

Lemma fire_change_settled v inst n :
  settled inst n ->
  exists inst',
    fire_change b DashboardPage v inst = Some inst' /\
    settled inst' v /\
    (inst' = evaluate DashboardPage [v] (log inst) (passes inst)
     \/ (b = true /\ v = n /\ inst' = inst)).
Proof.
  intros (Hh & Hv & Hl & Hp).
  unfold fire_change. rewrite Hv, Hh. simpl.
  destruct b; simpl.
  - case_bool_decide as Heq.
    + injection Heq as ->. exists inst. split; [reflexivity|].
      split; [repeat split; assumption | right; auto].
    + eexists. split; [reflexivity|].
      split; [now apply evaluate_settled | left; reflexivity].
  - eexists. split; [reflexivity|].
    split; [now apply evaluate_settled | left; reflexivity].
Qed.

Lemma run_from_app inst xs ys :
  run_from b inst (xs ++ ys)
  = match run_from b inst xs with
    | Some inst' => run_from b inst' ys
    | None => None
    end.
Proof.
  revert inst. induction xs as [|x xs IH]; intros inst; simpl.
  - reflexivity.
  - destruct (fire_change b DashboardPage x inst); [apply IH | reflexivity].
Qed.

Lemma run_from_settled inputs : forall inst n,
  settled inst n ->
  exists inst',
    run_from b inst inputs = Some inst' /\
    settled inst' (default n (last inputs)).
Proof.
  induction inputs as [|v vs IH]; intros inst n Hs.
  - exists inst. split; [reflexivity | assumption].
  - rewrite default_last_cons. simpl.
    destruct (fire_change_settled v inst n Hs) as (i1 & -> & Hs1 & _).
    apply IH, Hs1.
Qed.

Lemma run_settled inputs :
  exists inst,
    run b inputs = Some inst /\ settled inst (default "" (last inputs)).
Proof. apply run_from_settled, mount_settled. Qed.

Lemma run_snoc_settled inputs s :
  exists inst, run b (inputs ++ [s]) = Some inst /\ settled inst s.
Proof.
  destruct (run_settled (inputs ++ [s])) as (inst & Hr & Hs).
  rewrite last_snoc in Hs. eauto.
Qed.

End Session.

(** ** The Echo View *)

(** C1. For every string [s], after any session so far, the change event
    that carries [s] leaves the greeting at "Hello, " followed by [s]
    followed by "!": the whole content of the field, not what was typed
    last.  In particular the inputs "A", "Al", "Ali" give the greetings
    "Hello, A!", "Hello, Al!", "Hello, Ali!" in this order. *)
Theorem echo_greeting_full_content (b : bool) (inputs : list string) (s : string) :
  (exists inst,
     run b (inputs ++ [s]) = Some inst /\
     greeting (view inst) = Some ("Hello, " +:+ s +:+ "!")) /\
  greetings_from b (mount DashboardPage) ["A"; "Al"; "Ali"]
  = [Some "Hello, A!"; Some "Hello, Al!"; Some "Hello, Ali!"].
Proof.
  split.
  - destruct (run_snoc_settled b inputs s) as (inst & Hr & _ & Hv & _).
    exists inst. split; [exact Hr|].
    rewrite Hv. apply echo_tree_greeting.
  - destruct b; vm_compute; reflexivity.
Qed.

(** C2. The state of the Echo View starts as the empty string: the first
    evaluation creates the hook cell with "", and the first tree shows
    the greeting "Hello, !" and a text field whose value is "". *)
Theorem echo_initial_render :
  hooks (mount DashboardPage) = [""] /\
  echo_state (mount DashboardPage) = Some "" /\
  greeting (view (mount DashboardPage)) = Some "Hello, !" /\
  input_value (view (mount DashboardPage)) = Some "".
Proof. repeat split; reflexivity. Qed.

(** C3. In every reachable state of the Echo View (mount followed by any
    sequence of change events) the tree on screen is the one of the
    current state, which is the value committed last: the text field
    shows the state, and the greeting is "Hello, " followed by the state
    followed by "!". *)
Theorem echo_view_reflects_state (b : bool) (inputs : list string) :
  exists inst n,
    run b inputs = Some inst /\
    echo_state inst = Some n /\
    n = default "" (last inputs) /\
    input_value (view inst) = Some n /\
    greeting (view inst) = Some ("Hello, " +:+ n +:+ "!").
Proof.
  destruct (run_settled b inputs) as (inst & Hr & Hh & Hv & _).
  exists inst, (default "" (last inputs)).
  split; [exact Hr|]. unfold echo_state. rewrite Hh, Hv.
  repeat split; reflexivity.
Qed.

(** C4. The change handler of the text field calls the setter with the
    value of the event and does nothing else, whatever the value is; and
    in every reachable state a change event with any string [s] is
    delivered and leaves the state equal to [s]: nothing is checked, no
    length is bounded, and there is no failing case. *)
Theorem update_text_unconditional (b : bool) (inputs : list string) (s : string) :
  exists inst el h inst',
    run b inputs = Some inst /\
    head (find_elems "input" (view inst)) = Some el /\
    handler "onChange" (props_of el) = Some h /\
    (forall v, h {| target_value := v |} = [SetState 0 v]) /\
    fire_change b DashboardPage s inst = Some inst' /\
    hooks inst' = [s] /\
    echo_state inst' = Some s.
Proof.
  destruct (run_settled b inputs) as (inst & Hr & Hs).
  destruct (fire_change_settled b s inst _ Hs) as (inst' & Hf & (Hh' & _) & _).
  destruct Hs as (_ & Hv & _).
  destruct (echo_tree_handler (default "" (last inputs))) as (el & h & He & Hk & Hact).
  exists inst, el, h, inst'. rewrite Hv.
  unfold echo_state. rewrite Hh'. repeat split; assumption.
Qed.

(** C5. A change event that carries the empty string, after any session
    (so also after a non-empty string was entered), brings the greeting
    back to "Hello, !": state and tree are again those of the first
    render. *)
Theorem empty_update_resets (b : bool) (inputs : list string) :
  exists inst,
    run b (inputs ++ [""]) = Some inst /\
    greeting (view inst) = Some "Hello, !" /\
    greeting (view inst) = greeting (view (mount DashboardPage)) /\
    view inst = view (mount DashboardPage) /\
    hooks inst = hooks (mount DashboardPage).
Proof.
  destruct (run_snoc_settled b inputs "") as (inst & Hr & Hh & Hv & _).
  exists inst. rewrite Hv, Hh. repeat split; assumption.
Qed.

(** C8. Every evaluation of [DashboardPage], the first one and each later
    one, on any hook store, adds exactly one line to the console, the
    text "Dashboard client-component".  So in every session the console
    holds one such line per render pass, and it is not one line per
    mount: after the mount and one change event that enters "A" there
    are two. *)
Theorem log_line_every_render_pass (b : bool) :
  (forall w, console (DashboardPage w).2
             = console w ++ ["Dashboard client-component"]) /\
  (forall inputs, exists inst,
     run b inputs = Some inst /\
     log inst = replicate (passes inst) "Dashboard client-component" /\
     0 < passes inst) /\
  log <$> run b ["A"]
  = Some ["Dashboard client-component"; "Dashboard client-component"].
Proof.
  split; [exact DashboardPage_console|]. split.
  - intros inputs.
    destruct (run_settled b inputs) as (inst & Hr & _ & _ & Hl & Hp).
    exists inst. repeat split; assumption.
  - destruct b; vm_compute; reflexivity.
Qed.

(** C9. Updating the text is idempotent: from every reachable state, a
    second change event with the same string [s] leaves the state and the
    tree on screen as the first one left them. *)
Theorem update_text_idempotent (b : bool) (inputs : list string) (s : string) :
  exists once twice,
    run b (inputs ++ [s]) = Some once /\
    fire_change b DashboardPage s once = Some twice /\
    run b (inputs ++ [s; s]) = Some twice /\
    hooks twice = hooks once /\
    view twice = view once.
Proof.
  destruct (run_snoc_settled b inputs s) as (once & Hr & Hs).
  destruct (fire_change_settled b s once s Hs) as (twice & Hf & Hs2 & _).
  exists once, twice.
  assert (Hrr : run b (inputs ++ [s; s]) = Some twice).
  { change [s; s] with ([s] ++ [s]). rewrite app_assoc.
    unfold run in *. rewrite run_from_app, Hr. simpl. now rewrite Hf. }
  destruct Hs as (Hh1 & Hv1 & _), Hs2 as (Hh2 & Hv2 & _).
  repeat split; try assumption; congruence.
Qed.

(** ** The Landing View *)

(** C6. The Landing View reads nothing: on every hook store and console
    it returns the same tree and leaves both untouched.  The tree has
    one heading, "Home Page", and one navigation element, labelled
    "To Dashboard", whose target is "/dashboard". *)
Theorem landing_view_fixed (w : world) :
  (page w).2 = w /\
  (forall w', (page w').1 = (page w).1) /\
  text_content <$> find_elems "h2" (page w).1 = ["Home Page"] /\
  nav_elements (page w).1 = [("To Dashboard", Some "/dashboard")].
Proof. repeat split; reflexivity. Qed.

(** C7. Activating the navigation element of the Landing View asks for
    exactly the address "/dashboard". *)
Theorem landing_link_navigates (w : world) :
  activate <$> find_elems "Link" (page w).1 = [Some (Navigate "/dashboard")].
Proof. reflexivity. Qed.

(** ** Determinism *)

(** C10. Rendering is a function of the state alone.  The Landing View
    gives one tree whatever the store and the console hold.  The Echo
    View gives, for a state value [n], the tree [echo_tree n] whatever
    the other cells and the console hold, the first evaluation being the
    case of the value ""; and in every session the tree on screen is
    [echo_tree] of the current state. *)
Theorem rendering_deterministic (b : bool) :
  (forall w1 w2, (page w1).1 = (page w2).1) /\
  (forall n rest1 rest2 lg1 lg2,
     (DashboardPage {| cells := n :: rest1; cursor := 0; console := lg1 |}).1
     = (DashboardPage {| cells := n :: rest2; cursor := 0; console := lg2 |}).1) /\
  (forall n rest lg,
     (DashboardPage {| cells := n :: rest; cursor := 0; console := lg |}).1
     = echo_tree n) /\
  (forall lg,
     (DashboardPage {| cells := []; cursor := 0; console := lg |}).1
     = echo_tree "") /\
  (forall inputs, exists inst n,
     run b inputs = Some inst /\
     echo_state inst = Some n /\
     view inst = echo_tree n).
Proof.
  repeat split; try reflexivity.
  intros inputs.
  destruct (run_settled b inputs) as (inst & Hr & Hh & Hv & _).
  exists inst, (default "" (last inputs)).
  unfold echo_state. rewrite Hh. repeat split; assumption.
Qed.

(** * Further facts about the two components *)

(** ** [DashboardPage] on an arbitrary hook store *)

(** What one evaluation returns at hook position [cursor w]: the tree of
    the value read there (the initial "" when the cell is missing), with
    a handler whose setter names that position. *)
Lemma DashboardPage_at w :
  let n := default "" (cells w !! cursor w) in
  input_value (DashboardPage w).1 = Some n /\
  greeting (DashboardPage w).1 = Some ("Hello, " +:+ n +:+ "!") /\
  exists h,
    change_handler (DashboardPage w).1 = Some h /\
    forall v, h {| target_value := v |} = [SetState (cursor w) v].
Proof.
  destruct w as [cs i lg].
  unfold DashboardPage, bind, console_log, useState; simpl.
  destruct (cs !! i); simpl; repeat split; eexists; split; reflexivity.
Qed.

Lemma DashboardPage_cells w :
  cells (DashboardPage w).2
  = match cells w !! cursor w with
    | Some _ => cells w
    | None => cells w ++ [""]
    end.
Proof.
  destruct w as [cs i lg].
  unfold DashboardPage, bind, console_log, useState; simpl.
  destruct (cs !! i); reflexivity.
Qed.

Lemma DashboardPage_cursor w : cursor (DashboardPage w).2 = S (cursor w).
Proof.
  destruct w as [cs i lg].
  unfold DashboardPage, bind, console_log, useState; simpl.
  destruct (cs !! i); reflexivity.
Qed.

(** The cell of the component exists once it has been evaluated at a
    position that is not beyond the end of the store. *)
Lemma DashboardPage_cell_exists w :
  cursor w <= length (cells w) ->
  cursor w < length (cells (DashboardPage w).2).
Proof.
  intros Hle. rewrite DashboardPage_cells.
  destruct (cells w !! cursor w) eqn:Hc.
  - apply lookup_lt_Some in Hc. exact Hc.
  - rewrite length_app. simpl. lia.
Qed.

(** X1. Whatever the hook store holds, the tree of the Echo View has the
    same markup: a [div] with an [h1] that reads "DashboardPage", an
    [input] and an [h2], and no navigation element.  The text of the
    state is only ever a text node and the value of the field; it never
    becomes an element or a link. *)
Theorem echo_markup_independent_of_state (w : world) :
  tags (DashboardPage w).1 = ["div"; "h1"; "input"; "h2"] /\
  text_content <$> find_elems "h1" (DashboardPage w).1 = ["DashboardPage"] /\
  find_elems "Link" (DashboardPage w).1 = [] /\
  nav_elements (DashboardPage w).1 = [].
Proof.
  destruct w as [cs i lg].
  unfold DashboardPage, bind, console_log, useState; simpl.
  destruct (cs !! i); repeat split; reflexivity.
Qed.

(** X2. One evaluation of [DashboardPage] makes exactly one hook call and
    never overwrites a cell: the cursor moves on by one, the store is
    left as it is when the cell at the cursor exists, and is extended by
    one cell holding "" when it does not; every cell that was there
    keeps its value. *)
Theorem echo_eval_keeps_store (w : world) :
  cursor (DashboardPage w).2 = S (cursor w) /\
  cells (DashboardPage w).2
  = match cells w !! cursor w with
    | Some _ => cells w
    | None => cells w ++ [""]
    end /\
  cells w `prefix_of` cells (DashboardPage w).2 /\
  (forall j, j < length (cells w) ->
             cells (DashboardPage w).2 !! j = cells w !! j).
Proof.
  split; [apply DashboardPage_cursor|].
  split; [apply DashboardPage_cells|].
  rewrite DashboardPage_cells.
  destruct (cells w !! cursor w); split.
  - reflexivity.
  - reflexivity.
  - apply prefix_app_r. reflexivity.
  - intros j Hj. now apply lookup_app_l.
Qed.

(** X3. Write and read back, at any hook position.  Let the component be
    evaluated with the cursor within the store or just at its end.  When
    the setter calls its change handler makes for a value [v] are
    committed and the component is evaluated again at the same position,
    the field and the greeting show [v], the evaluation leaves the
    committed store as it is, and no other cell has changed. *)
Theorem echo_write_then_read (w : world) (v : string) :
  cursor w <= length (cells w) ->
  exists h,
    change_handler (DashboardPage w).1 = Some h /\
    let w' := (DashboardPage w).2 in
    let cs := commit (h {| target_value := v |}) (cells w') in
    let r := DashboardPage
               {| cells := cs; cursor := cursor w; console := console w' |} in
    cs !! cursor w = Some v /\
    (forall j, j <> cursor w -> cs !! j = cells w' !! j) /\
    input_value r.1 = Some v /\
    greeting r.1 = Some ("Hello, " +:+ v +:+ "!") /\
    cells r.2 = cs.
Proof.
  intros Hle.
  destruct (DashboardPage_at w) as (_ & _ & h & Hh & Hact).
  exists h. split; [exact Hh|]. cbv zeta. rewrite Hact.
  unfold commit; simpl.
  pose proof (DashboardPage_cell_exists w Hle) as Hlt.
  assert (Hlk : <[cursor w:=v]> (cells (DashboardPage w).2) !! cursor w = Some v)
    by now apply list_lookup_insert_eq.
  split; [exact Hlk|].
  split; [intros j Hj; now apply list_lookup_insert_ne|].
  match goal with
  | |- context [DashboardPage ?x] => set (w2 := x)
  end.
  destruct (DashboardPage_at w2) as (Hin & Hgr & _).
  pose proof (DashboardPage_cells w2) as Hcs.
  subst w2. simpl in Hin, Hgr, Hcs. rewrite Hlk in Hin, Hgr, Hcs.
  repeat split; assumption.
Qed.

Lemma echo_write_then_read_witness :
  1 <= length ["x"; "y"] /\
  exists h,
    change_handler
      (DashboardPage {| cells := ["x"; "y"]; cursor := 1; console := [] |}).1
    = Some h /\
    commit (h {| target_value := "Ali" |}) ["x"; "y"] = ["x"; "Ali"].
Proof.
  split; [simpl; lia|].
  destruct (echo_write_then_read
              {| cells := ["x"; "y"]; cursor := 1; console := [] |} "Ali")
    as (h & Hh & Hlk & Hne & _); [simpl; lia|].
  exists h. split; [exact Hh|].
  simpl in Hh. injection Hh as <-. reflexivity.
Defined.

(** X4. Evaluating the component twice in a row, with nothing committed
    in between, draws the same tree and leaves the same store; only the
    console grows, by one line.  This needs the cursor within the store
    or just at its end. *)
Theorem echo_reevaluation_stable (w : world) :
  cursor w <= length (cells w) ->
  let w1 := (DashboardPage w).2 in
  let again := DashboardPage
                 {| cells := cells w1; cursor := cursor w;
                    console := console w1 |} in
  again.1 = (DashboardPage w).1 /\
  cells again.2 = cells w1 /\
  console again.2 = console w1 ++ ["Dashboard client-component"].
Proof.
  intros Hle. cbv zeta.
  split; [|split; [|rewrite DashboardPage_console; reflexivity]].
  - destruct w as [cs i lg]. simpl in Hle.
    unfold DashboardPage, bind, console_log, useState; simpl.
    destruct (cs !! i) eqn:Hc; simpl.
    + rewrite Hc. reflexivity.
    + apply lookup_ge_None in Hc.
      assert (i = length cs) as -> by lia.
      rewrite lookup_app_r, Nat.sub_diag by lia. reflexivity.
  - pose proof (DashboardPage_cell_exists w Hle) as Hlt.
    apply lookup_lt_is_Some in Hlt. destruct Hlt as (x & Hx).
    match goal with
    | |- context [DashboardPage ?y] =>
        lazymatch y with
        | w => fail
        | _ => rewrite (DashboardPage_cells y)
        end
    end.
    simpl. rewrite Hx. reflexivity.
Qed.

Lemma echo_reevaluation_stable_witness :
  0 <= length (@nil string) /\
  (DashboardPage {| cells := [""]; cursor := 0;
                    console := ["Dashboard client-component"] |}).1
  = (DashboardPage {| cells := []; cursor := 0; console := [] |}).1.
Proof.
  split; [simpl; lia|].
  apply (echo_reevaluation_stable {| cells := []; cursor := 0; console := [] |}).
  simpl. lia.
Defined.

(** ** Sessions *)





(** X5. The Echo View keeps no history: two sessions that end with the
    same change event end with the same store and the same tree on
    screen, whatever was entered before. *)
Theorem session_history_independent (b : bool) (xs ys : list string) (s : string) :
  exists i1 i2,
    run b (xs ++ [s]) = Some i1 /\
    run b (ys ++ [s]) = Some i2 /\
    hooks i1 = hooks i2 /\
    view i1 = view i2.
Proof.
  destruct (run_snoc_settled b xs s) as (i1 & Hr1 & Hh1 & Hv1 & _).
  destruct (run_snoc_settled b ys s) as (i2 & Hr2 & Hh2 & Hv2 & _).
  exists i1, i2. repeat split; congruence.
Qed.


(** ** The Landing View *)

(** X7. The Landing View has no text field and no state.  Its tree
    offers no change handler, so a change event cannot be delivered to
    an instance that shows it, whatever the value and the host; mounting
    it creates no hook cell and logs nothing. *)
Theorem landing_has_no_field (b : bool) (c : Render node) (v : string)
    (hs lg : list string) (p : nat) (w : world) :
  change_handler (page w).1 = None /\
  fire_change b c v
    {| hooks := hs; log := lg; view := (page w).1; passes := p |} = None /\
  hooks (mount page) = [] /\
  log (mount page) = [].
Proof. repeat split; reflexivity. Qed.

(** ** The greeting as a function of the state *)

Lemma append_bang_inj (n m : string) : n +:+ "!" = m +:+ "!" -> n = m.
Proof.
  revert m. induction n as [|a n IH]; intros [|a' m] H; simpl in H.
  - reflexivity.
  - injection H as _ H. destruct m; discriminate.
  - injection H as _ H. destruct n; discriminate.
  - injection H as -> H. f_equal. apply IH, H.
Qed.

(** X8. The greeting determines the content of the field: two trees of
    the Echo View, from any two hook stores, that show the same greeting
    show the same value in the text field. *)
Theorem greeting_determines_field (w1 w2 : world) :
  greeting (DashboardPage w1).1 = greeting (DashboardPage w2).1 ->
  input_value (DashboardPage w1).1 = input_value (DashboardPage w2).1.
Proof.
  destruct (DashboardPage_at w1) as (Hi1 & Hg1 & _).
  destruct (DashboardPage_at w2) as (Hi2 & Hg2 & _).
  rewrite Hi1, Hi2, Hg1, Hg2. intros H.
  injection H as H. apply append_bang_inj in H. now rewrite H.
Qed.

Lemma greeting_determines_field_witness :
  greeting
    (DashboardPage {| cells := ["Ali"]; cursor := 0; console := [] |}).1
  = greeting
      (DashboardPage {| cells := ["x"; "Ali"]; cursor := 1;
                        console := ["one line"] |}).1 /\
  input_value
    (DashboardPage {| cells := ["Ali"]; cursor := 0; console := [] |}).1
  = input_value
      (DashboardPage {| cells := ["x"; "Ali"]; cursor := 1;
                        console := ["one line"] |}).1.
Proof.
  split; [reflexivity|].
  apply greeting_determines_field. reflexivity.
Defined.
